(** * View-state logic of the [Home] component (src/app/page.tsx)

    The component owns six pieces of view state and five asynchronous
    handlers over third-party handles (smart account, read client,
    provider/signer, auth accessor).  Every handler is embedded as a
    computation in a small trace monad: a run is the list of effects the
    handler performs, in order, together with the way its promise settles.
    State setters, console output, calls on the handles and suspension
    points ([await]) are the effects. *)

From Stdlib Require Import List String Ascii ZArith Bool Lia DecimalString.
From ExtLib Require Import Structures.Monad Structures.MonadExc.
Import ListNotations.
Import MonadNotation.
Local Open Scope string_scope.
Local Open Scope list_scope.
Local Open Scope monad_scope.

Set Implicit Arguments.

(** ** Values exchanged with the external handles *)

(** A thrown value / rejection reason, as it is printed by the console. *)
Definition Err := string.

(** How a call settles: a promise resolves or rejects, a synchronous call
    returns or throws. *)
Inductive Outcome (A : Type) : Type :=
| Resolved (a : A)
| Rejected (e : Err).
Arguments Resolved {A} a.
Arguments Rejected {A} e.

(** The transaction object literal built by the senders; [data] is absent
    in the provider-based sender. *)
Record Tx := mkTx { to : string; value : string; data : option string }.

Inductive UserOp := mkUserOp (payload : string).

(** [feeQuotesResult.verifyingPaymasterGasless]; either field may be missing
    ([None] stands for [undefined]/[null]). *)
Record GaslessQuote := mkGaslessQuote
  { userOp : option UserOp; userOpHash : option string }.

Record FeeQuotesResult := mkFeeQuotes
  { verifyingPaymasterGasless : option GaslessQuote }.

Record SmartAccount := mkSmartAccount
  { getAddress : Outcome string;
    getFeeQuotes : Tx -> Outcome (option FeeQuotesResult);
    sendUserOperation : UserOp -> string -> Outcome (option string) }.

Record PublicClient := mkPublicClient { getBalance : string -> Outcome Z }.

Record TxReceipt := mkReceipt { hash : string }.
Record TxResponse := mkResponse { wait : Outcome (option TxReceipt) }.
Record Signer := mkSigner { sendTransaction : Tx -> Outcome TxResponse }.
Record Provider := mkProvider { getSigner : Outcome Signer }.

Definition UserInfo := list (string * string).

(** [getUserInfo] as handed out by [useParticleAuth]: possibly not a
    function; when it is one, calling it returns a profile, returns
    [null]/[undefined], or throws. *)
Inductive Accessor :=
| NotAFunction
| Callable (result : Outcome (option UserInfo)).

(** ** View state *)

Record State := mkState
  { userAddress : string;
    userInfo : option UserInfo;
    balance : option string;
    recipientAddress : string;
    isSending : bool;
    transactionHash : option string }.

(** What one render of [Home] closes over: the hook values and the state
    values of that render. *)
Record Render := mkRender
  { isConnected : bool;
    smartAccount : option SmartAccount;
    publicClient : option PublicClient;
    getUserInfo : Accessor;
    view : State }.

(** ** Effects *)

Inductive Call :=
| CGetBalance (address : string)
| CGetUserInfo
| CGetAddress
| CGetFeeQuotes (tx : Tx)
| CSendUserOperation (op : UserOp) (opHash : string)
| CGetSigner
| CSendTransaction (tx : Tx)
| CWait
| CWindowOpen (url target : string).

Inductive Level := LLog | LWarn | LError.

Inductive Event :=
| SetUserAddress (a : string)
| SetUserInfo (i : option UserInfo)
| SetBalance (b : option string)
| SetRecipientAddress (a : string)
| SetIsSending (b : bool)
| SetTransactionHash (h : option string)
| Console (l : Level) (msg : string) (extra : option string)
| Invoke (c : Call)
| Suspend.

Definition apply_event (s : State) (e : Event) : State :=
  match e with
  | SetUserAddress a =>
      mkState a (userInfo s) (balance s) (recipientAddress s) (isSending s)
        (transactionHash s)
  | SetUserInfo i =>
      mkState (userAddress s) i (balance s) (recipientAddress s) (isSending s)
        (transactionHash s)
  | SetBalance b =>
      mkState (userAddress s) (userInfo s) b (recipientAddress s) (isSending s)
        (transactionHash s)
  | SetRecipientAddress a =>
      mkState (userAddress s) (userInfo s) (balance s) a (isSending s)
        (transactionHash s)
  | SetIsSending b =>
      mkState (userAddress s) (userInfo s) (balance s) (recipientAddress s) b
        (transactionHash s)
  | SetTransactionHash h =>
      mkState (userAddress s) (userInfo s) (balance s) (recipientAddress s)
        (isSending s) h
  | Console _ _ _ | Invoke _ | Suspend => s
  end.

(** The store after a whole trace. *)
Definition run_trace (t : list Event) (s : State) : State :=
  fold_left apply_event t s.

(** The store after each event of a trace, in order. *)
Fixpoint scan (t : list Event) (s : State) : list State :=
  match t with
  | [] => []
  | e :: t' => apply_event s e :: scan t' (apply_event s e)
  end.

(** ** The trace monad *)

Definition Async (A : Type) : Type := (list Event * Outcome A)%type.

Definition trace {A} (m : Async A) : list Event := fst m.
Definition settled {A} (m : Async A) : Outcome A := snd m.

#[export] Instance Monad_Async : Monad Async :=
  { ret := fun _ a => ([], Resolved a);
    bind := fun _ _ m k =>
      match m with
      | (t, Resolved a) => let (t', r) := k a in (t ++ t', r)
      | (t, Rejected e) => (t, Rejected e)
      end }.

#[export] Instance MonadExc_Async : MonadExc Err Async :=
  { raise := fun _ e => ([], Rejected e);
    catch := fun _ body handler =>
      match body with
      | (t, Resolved a) => (t, Resolved a)
      | (t, Rejected e) => let (t', r) := handler e in (t ++ t', r)
      end }.

(** [try { body } finally { fin }]: [fin] runs however [body] settles. *)
Definition finally {A} (body : Async A) (fin : Async unit) : Async A :=
  let (t, r) := body in
  let (t', r') := fin in
  (t ++ t', match r' with Rejected e => Rejected e | Resolved _ => r end).

Definition emit (e : Event) : Async unit := ([e], Resolved tt).

(** A call on an external handle: it is recorded and settles as the handle
    says. *)
Definition invoke {A} (c : Call) (o : Outcome A) : Async A := ([Invoke c], o).

(** [await p]: the function is suspended after [p] has been started and is
    resumed with the way [p] settled. *)
Definition await {A} (p : Async A) : Async A :=
  let (t, r) := p in (t ++ [Suspend], r).

Definition setUserAddress a := emit (SetUserAddress a).
Definition setUserInfo i := emit (SetUserInfo i).
Definition setBalance b := emit (SetBalance b).
Definition setRecipientAddress a := emit (SetRecipientAddress a).
Definition setIsSending b := emit (SetIsSending b).
Definition setTransactionHash h := emit (SetTransactionHash h).
Definition console_log msg extra := emit (Console LLog msg extra).
Definition console_warn msg extra := emit (Console LWarn msg extra).
Definition console_error msg extra := emit (Console LError msg extra).

(** ** JavaScript truthiness of the values involved *)

(** [x || null] on a [string | null | undefined]: the empty string is falsy. *)
Definition or_null (x : option string) : option string :=
  match x with
  | Some s => if (s =? EmptyString)%string then None else Some s
  | None => None
  end.

(** How the console prints a hash argument. *)
Definition show_hash (h : option string) : string :=
  match h with Some s => s | None => "null" end.

(** ** Amounts *)

Definition is_digit (c : ascii) : bool :=
  (48 <=? nat_of_ascii c)%nat && (nat_of_ascii c <=? 57)%nat.

Fixpoint all_digits (s : string) : bool :=
  match s with
  | EmptyString => true
  | String c r => is_digit c && all_digits r
  end.

(** [BigInt] of a string of digits, most significant first. *)
Fixpoint digits_value (acc : Z) (s : string) : Z :=
  match s with
  | EmptyString => acc
  | String c r => digits_value (10 * acc + (Z.of_nat (nat_of_ascii c) - 48))%Z r
  end.

Fixpoint split_dot (s : string) : string * option string :=
  match s with
  | EmptyString => (EmptyString, None)
  | String c r =>
      if Ascii.eqb c "."%char then (EmptyString, Some r)
      else let (i, f) := split_dot r in (String c i, f)
  end.

Fixpoint trim_zeros (s : string) : string :=
  match s with
  | EmptyString => EmptyString
  | String c r =>
      match trim_zeros r with
      | EmptyString => if Ascii.eqb c "0"%char then EmptyString else String c EmptyString
      | r' => String c r'
      end
  end.

Fixpoint padEnd (n : nat) (s : string) : string :=
  match n with
  | O => s
  | S n' =>
      match s with
      | EmptyString => String "0"%char (padEnd n' EmptyString)
      | String c r => String c (padEnd n' r)
      end
  end.

(** Modelled from the spec: [parseEther] belongs to the package viem, which
    is not among the sources.  The spec fixes the transfer at 0.01 native
    units; viem reads a decimal literal as an amount of base units, one
    native unit being 10^18 of them: an optional sign, digits, an optional
    dot and digits; trailing zeros of the fraction are dropped and the
    fraction is padded to 18 places.  A fraction longer than 18 places (which
    viem rounds) is outside this model, as is any other text (which viem
    rejects): both give [None]. *)
Definition parseEther (ether : string) : option Z :=
  let (negative, body) :=
    match ether with
    | String "-"%char r => (true, r)
    | _ => (false, ether)
    end in
  let (integer, frac) := split_dot body in
  let written := match frac with Some f => f | None => "0" end in
  let fraction := trim_zeros written in
  if all_digits integer && all_digits written then
    if (String.length fraction <=? 18)%nat then
      let magnitude := digits_value 0 (integer ++ padEnd 18 fraction)%string in
      Some (if negative then (- magnitude)%Z else magnitude)
    else None
  else None.

(** [toString()] of a [bigint]: the decimal numeral. *)
Definition toString (n : Z) : string := NilZero.string_of_int (Z.to_int n).

(** A synchronous result that may be a throw. *)
Definition settle {A} (o : Outcome A) : Async A := ([], o).

(** The call [parseEther(ether)] inside a handler: text that is no decimal
    number makes it throw. *)
Definition parseEther_call (ether : string) : Async Z :=
  match parseEther ether with
  | Some wei => ret wei
  | None => raise "InvalidDecimalNumberError"
  end.

(** ** Promises running side by side *)

(** The pieces of a trace between suspension points; a piece that was
    suspended ends with its [Suspend]. *)
Fixpoint segments (t : list Event) : list (list Event) :=
  match t with
  | [] => []
  | Suspend :: t' => [Suspend] :: segments t'
  | e :: t' =>
      match segments t' with
      | seg :: rest => (e :: seg) :: rest
      | [] => [[e]]
      end
  end.

(** What an async function does before it first gives up control. *)
Fixpoint sync_prefix (t : list Event) : list Event :=
  match t with
  | [] => []
  | Suspend :: _ => [Suspend]
  | e :: t' => e :: sync_prefix t'
  end.

Fixpoint after_suspend (t : list Event) : list Event :=
  match t with
  | [] => []
  | Suspend :: t' => t'
  | _ :: t' => after_suspend t'
  end.

(** The resumptions of two suspended functions, taken in the order the
    schedule says ([true]: the first one is resumed); the flag tells whether
    the first function settled no later than the second. *)
Fixpoint interleave (sched : list bool) (a b : list (list Event))
  : list Event * bool :=
  match a, b with
  | [], _ => (List.concat b, true)
  | _, [] => (List.concat a, false)
  | x :: a', y :: b' =>
      match sched with
      | [] => (List.concat a ++ List.concat b, true)
      | true :: sc => let (t, w) := interleave sc a' b in (x ++ t, w)
      | false :: sc => let (t, w) := interleave sc a b' in (y ++ t, w)
      end
  end.

(** [Promise.all([p, q])]: both functions are started, in order, before
    anything is awaited; their resumptions interleave; the result rejects
    with the first rejection.  Nothing is cancelled, so the events of the
    function still running are kept. *)
Definition promise_all {A B} (sched : list bool) (p : Async A) (q : Async B)
  : Async (A * B) :=
  let (t, p_first) :=
    interleave sched (segments (after_suspend (trace p)))
      (segments (after_suspend (trace q))) in
  (sync_prefix (trace p) ++ sync_prefix (trace q) ++ t,
   match settled p, settled q with
   | Resolved x, Resolved y => Resolved (x, y)
   | Rejected e, Resolved _ => Rejected e
   | Resolved _, Rejected e => Rejected e
   | Rejected e1, Rejected e2 => Rejected (if p_first then e1 else e2)
   end).

(** ** The handlers of [Home] *)

Section Home.

(** [formatEther] of viem: base units to a decimal numeral. *)
Variable formatEther : Z -> string.

(** [formatBalance] of [@/utils/utils], which is not part of the sources;
    nothing is assumed about it, not even that it returns. *)
Variable formatBalance : string -> Outcome string.

(** [new ethers.BrowserProvider(new AAWrapProvider(smartAccount,
    SendTransactionMode.Gasless), "any")]. *)
Variable BrowserProvider : SmartAccount -> Provider.

Definition customProvider (r : Render) : option Provider :=
  match smartAccount r with
  | Some account => Some (BrowserProvider account)
  | None => None
  end.

Definition fetchBalance (r : Render) (address : string) : Async unit :=
  match publicClient r with
  | None => ret tt
  | Some client =>
      catch
        (balanceResponse <-
           await (invoke (CGetBalance address) (getBalance client address)) ;;
         let balanceInEther :=
           if (balanceResponse =? 0)%Z then "0.0"
           else formatEther balanceResponse in
         formatted <- settle (formatBalance balanceInEther) ;;
         setBalance (Some formatted))
        (fun error =>
           console_error "Error fetching balance:" (Some error) ;;
           setBalance (Some "0.0"))
  end.

Definition fetchUserInfo (r : Render) : Async unit :=
  match getUserInfo r with
  | Callable result =>
      catch
        (console_log "function" None ;;
         info <- invoke CGetUserInfo result ;;
         match info with
         | Some i => setUserInfo (Some i)
         | None => console_warn "getUserInfo returned null or undefined." None
         end)
        (fun error => console_warn "getUserInfo failed:" (Some error))
  | NotAFunction =>
      console_warn "Skipping getUserInfo: Function is not available." None
  end.

Definition loadUserData (sched : list bool) (r : Render) : Async unit :=
  catch
    (if negb (isConnected r) then ret tt
     else
       match smartAccount r with
       | None => ret tt
       | Some account =>
           address <- await (invoke CGetAddress (getAddress account)) ;;
           setUserAddress address ;;
           _ <- await (promise_all sched (fetchBalance r address)
                         (fetchUserInfo r)) ;;
           ret tt
       end)
    (fun error => console_error "Error loading account data:" (Some error)).

Definition handleOnRamp : Async unit :=
  invoke
    (CWindowOpen
       "https://ramp.particle.network/?fiatCoin=USD&cryptoCoin=ETH&network=Ethereum&theme=dark&language=en"
       "_blank")
    (Resolved tt).

(** [feeQuotesResult?.verifyingPaymasterGasless || {}]. *)
Definition gasless_quote (feeQuotesResult : option FeeQuotesResult)
  : GaslessQuote :=
  match feeQuotesResult with
  | Some quotes =>
      match verifyingPaymasterGasless quotes with
      | Some quote => quote
      | None => mkGaslessQuote None None
      end
  | None => mkGaslessQuote None None
  end.

Definition executeTxNative (r : Render) : Async unit :=
  setIsSending true ;;
  finally
    (catch
       (wei <- parseEther_call "0.01" ;;
        let tx := mkTx (recipientAddress (view r)) (toString wei) (Some "0x") in
        feeQuotesResult <-
          await (match smartAccount r with
                 | Some account =>
                     invoke (CGetFeeQuotes tx) (getFeeQuotes account tx)
                 | None => ret None
                 end) ;;
        let quote := gasless_quote feeQuotesResult in
        match userOp quote, or_null (userOpHash quote) with
        | Some op, Some opHash =>
            sent <-
              await (match smartAccount r with
                     | Some account =>
                         invoke (CSendUserOperation op opHash)
                           (sendUserOperation account op opHash)
                     | None => ret None
                     end) ;;
            let txHash := or_null sent in
            setTransactionHash txHash ;;
            console_log "Transaction sent:" (Some (show_hash txHash))
        | _, _ => console_error "User operation is undefined" None
        end)
       (fun error => console_error "Failed to send transaction:" (Some error)))
    (setIsSending false).

Definition executeTxEthers (r : Render) : Async unit :=
  match customProvider r with
  | None => ret tt
  | Some provider =>
      signer <- await (invoke CGetSigner (getSigner provider)) ;;
      setIsSending true ;;
      finally
        (catch
           (wei <- parseEther_call "0.01" ;;
            let tx := mkTx (recipientAddress (view r)) (toString wei) None in
            txResponse <-
              await (invoke (CSendTransaction tx) (sendTransaction signer tx)) ;;
            txReceipt <- await (invoke CWait (wait txResponse)) ;;
            setTransactionHash (or_null (option_map hash txReceipt)))
           (fun error =>
              console_error "Failed to send transaction using ethers.js:"
                (Some error)))
        (setIsSending false)
  end.

(** Everything the rendered page can start. *)
Inductive Handler :=
| OnConnectionChange (sched : list bool)
| OnRefreshBalance
| OnRamp
| OnRecipientInput (text : string)
| OnSendNative
| OnSendEthers.

Definition handle (r : Render) (h : Handler) : Async unit :=
  match h with
  | OnConnectionChange sched => loadUserData sched r
  | OnRefreshBalance => fetchBalance r (userAddress (view r))
  | OnRamp => handleOnRamp
  | OnRecipientInput text => setRecipientAddress text
  | OnSendNative => executeTxNative r
  | OnSendEthers => executeTxEthers r
  end.

End Home.

(** ** Sample handles, for running the handlers on concrete inputs *)

Module Samples.

Definition formatEther (wei : Z) : string := toString wei.
Definition formatBalance (text : string) : Outcome string := Resolved text.

Definition receipt := mkReceipt "0xfeed".
Definition response := mkResponse (Resolved (Some receipt)).
Definition signer := mkSigner (fun _ => Resolved response).
Definition BrowserProvider (_ : SmartAccount) : Provider :=
  mkProvider (Resolved signer).

Definition quote := mkGaslessQuote (Some (mkUserOp "op")) (Some "0xop").
Definition account :=
  mkSmartAccount (Resolved "0xA11CE")
    (fun _ => Resolved (Some (mkFeeQuotes (Some quote))))
    (fun _ _ => Resolved (Some "0xbeef")).

(** An account whose fee quotes carry no sponsored variant. *)
Definition account_unsponsored :=
  mkSmartAccount (Resolved "0xA11CE")
    (fun _ => Resolved (Some (mkFeeQuotes None)))
    (fun _ _ => Resolved (Some "0xbeef")).

(** An account whose submission resolves without a hash. *)
Definition account_no_hash :=
  mkSmartAccount (Resolved "0xA11CE")
    (fun _ => Resolved (Some (mkFeeQuotes (Some quote))))
    (fun _ _ => Resolved None).

Definition client := mkPublicClient (fun _ => Resolved 1500000000000000000%Z).
Definition client_down := mkPublicClient (fun _ => Rejected "network error").

Definition profile : UserInfo := [("name", "Ada")].

Definition idle := mkState EmptyString None None "0xB0B" false None.
Definition after_a_send :=
  mkState "0xA11CE" None None "0xB0B" false (Some "0x01d").

Definition connected :=
  mkRender true (Some account) (Some client) (Callable (Resolved (Some profile)))
    idle.
Definition no_account := mkRender false None None NotAFunction idle.
Definition balance_down :=
  mkRender true (Some account) (Some client_down)
    (Callable (Resolved (Some profile))) idle.
Definition unsponsored :=
  mkRender true (Some account_unsponsored) (Some client) NotAFunction idle.

Definition unhashed :=
  mkRender true (Some account_no_hash) (Some client) NotAFunction idle.


End Samples.

(** ** Vocabulary of the properties *)

(** The amount both senders transfer, in base units, as the decimal text the
    transaction carries. *)
Definition amount_text : string := "10000000000000000".

(** The transaction each sender is expected to build in a render. *)
Definition native_tx (r : Render) : Tx :=
  mkTx (recipientAddress (view r)) amount_text (Some "0x").

Definition ethers_tx (r : Render) : Tx :=
  mkTx (recipientAddress (view r)) amount_text None.

(** The effects that leave the account panel's state alone. *)
Definition send_event (e : Event) : bool :=
  match e with
  | SetIsSending _ | SetTransactionHash _ | Console _ _ _ | Invoke _
  | Suspend => true
  | SetUserAddress _ | SetUserInfo _ | SetBalance _
  | SetRecipientAddress _ => false
  end.

Definition not_suspend (e : Event) : bool :=
  match e with Suspend => false | _ => true end.

Definition same_panel (s s' : State) : Prop :=
  userAddress s' = userAddress s /\ userInfo s' = userInfo s /\
  balance s' = balance s /\ recipientAddress s' = recipientAddress s.

(** The busy flag over a stretch of effects started in store [s]: set in
    every store the stretch passes through, cleared in the one it ends
    with. *)
Definition busy_until_done (t : list Event) (s : State) : Prop :=
  Forall (fun st => isSending st = true) (removelast (scan t s)) /\
  isSending (run_trace t s) = false.

(** What [await smartAccount?.getFeeQuotes(tx)] evaluates to in a render. *)
Definition fee_quotes (r : Render) : Outcome (option FeeQuotesResult) :=
  match smartAccount r with
  | Some account => getFeeQuotes account (native_tx r)
  | None => Resolved None
  end.

(** C1 as stated: started from an idle page, either sender has the flag set
    from its call to its end. *)
Definition busy_for_whole_call : Prop :=
  forall (BP : SmartAccount -> Provider) (r : Render) (s : State),
    isSending s = false ->
    busy_until_done (trace (executeTxNative r)) s /\
    busy_until_done (trace (executeTxEthers BP r)) s.

(** C5 as stated: no handler takes a hash away. *)
Definition hash_never_cleared : Prop :=
  forall (FE : Z -> string) (FB : string -> Outcome string)
         (BP : SmartAccount -> Provider) (r : Render) (h : Handler) (s : State),
    transactionHash s <> None ->
    transactionHash (run_trace (trace (handle FE FB BP r h)) s) <> None.

(** The native send goes through: there is an account, its fee quotes
    resolve with the sponsored operation [op] and its hash [opHash], and the
    submission of that operation resolves with [sent]. *)
Definition native_send_resolves
  (r : Render) (op : UserOp) (opHash : string) (sent : option string) : Prop :=
  exists account fq,
    smartAccount r = Some account /\
    getFeeQuotes account (native_tx r) = Resolved fq /\
    userOp (gasless_quote fq) = Some op /\
    or_null (userOpHash (gasless_quote fq)) = Some opHash /\
    sendUserOperation account op opHash = Resolved sent.

(** The provider-based send goes through: there is a provider, its signer is
    obtained, the transfer is accepted and its confirmation resolves with
    [receipt]. *)
Definition ethers_send_resolves
  (BP : SmartAccount -> Provider) (r : Render) (receipt : option TxReceipt)
  : Prop :=
  exists provider signer response,
    customProvider BP r = Some provider /\
    getSigner provider = Resolved signer /\
    sendTransaction signer (ethers_tx r) = Resolved response /\
    wait response = Resolved receipt.

(** A run calls [setTransactionHash]. *)
Definition writes_hash (t : list Event) : Prop :=
  exists v, In (SetTransactionHash v) t.

(** ** The rendered page and what a run shows of itself *)

(** The status line (page.tsx 43-49), from the three flags of [useAccount]. *)
Definition connectionStatus (connecting connected disconnected : bool)
  : string :=
  if connecting then "Connecting..."
  else if connected then "Connected"
  else if disconnected then "Disconnected"
  else "Unknown".

(** [disabled={!recipientAddress || isSending}], the attribute of both send
    buttons (page.tsx 269 and 278). *)
Definition send_disabled (s : State) : bool :=
  (recipientAddress s =? EmptyString)%string || isSending s.


(** The calls a run makes on the external handles, in order. *)
Fixpoint calls (t : list Event) : list Call :=
  match t with
  | [] => []
  | Invoke c :: t' => c :: calls t'
  | _ :: t' => calls t'
  end.

(** What a run writes to the console, in order. *)
Fixpoint console (t : list Event) : list (Level * string * option string) :=
  match t with
  | [] => []
  | Console l msg extra :: t' => (l, msg, extra) :: console t'
  | _ :: t' => console t'
  end.

(** The store at each suspension point of a run started in [s]: what a
    render sees while the handler waits. *)
Fixpoint suspended_stores (t : list Event) (s : State) : list State :=
  match t with
  | [] => []
  | Suspend :: t' => s :: suspended_stores t' s
  | e :: t' => suspended_stores t' (apply_event s e)
  end.

(** The effects that leave the send panel's state alone. *)
Definition load_event (e : Event) : bool :=
  match e with
  | SetUserAddress _ | SetUserInfo _ | SetBalance _ | Console _ _ _ | Invoke _
  | Suspend => true
  | SetRecipientAddress _ | SetIsSending _ | SetTransactionHash _ => false
  end.

Definition same_send_panel (s s' : State) : Prop :=
  recipientAddress s' = recipientAddress s /\ isSending s' = isSending s /\
  transactionHash s' = transactionHash s.

(** More sample handles. *)
Module MoreSamples.

(** A provider that hands out no signer. *)
Definition BrowserProvider_locked (_ : SmartAccount) : Provider :=
  mkProvider (Rejected "user rejected the request").

Definition client_empty := mkPublicClient (fun _ => Resolved 0%Z).

Definition empty_wallet :=
  mkRender true (Some Samples.account) (Some client_empty) NotAFunction
    Samples.idle.

End MoreSamples.

(** ** Proof automation *)

(** Case analysis on the way the external handles settle. *)
Ltac split_match :=
  match goal with
  | |- context [match ?x with _ => _ end] =>
      lazymatch x with
      | context [match _ with _ => _ end] => fail
      | _ => let E := fresh "E" in destruct x eqn:E
      end
  end.

Ltac run_cases := cbn; repeat (split_match; cbn in * ).

(** Membership in a trace that is written out. *)
Ltac in_trace := cbn; repeat (first [left; reflexivity | right]).

Ltac not_in_trace :=
  cbn; intros Hin;
  repeat (destruct Hin as [Hin|Hin]; [discriminate Hin|]); exact Hin.

(** [busy_until_done] on a trace that is written out. *)
Ltac busy_done := split; [cbn; repeat constructor | reflexivity].

(** The only transaction in a trace that is written out. *)
Ltac only_tx :=
  cbn; intros Hin;
  repeat (destruct Hin as [Hin|Hin];
          [first [discriminate Hin | now injection Hin as <-]|]);
  now elim Hin.

(** A trace that is written out holds no [setTransactionHash]. *)
Ltac no_hash_write :=
  let v := fresh "v" in
  let Hin := fresh "Hin" in
  intros [v Hin]; cbn in Hin;
  repeat (destruct Hin as [Hin|Hin]; [discriminate Hin|]); exact Hin.

(** What lies between the first and the last effect of a trace that is
    written out. *)
Ltac take_mid :=
  match goal with
  | |- exists mid, _ :: ?l = _ :: mid ++ _ => exists (removelast l)
  | |- exists mid, _ :: _ :: _ :: ?l = _ /\ _ => exists (removelast l)
  end.

(** ** Properties *)

Arguments native_tx : simpl never.
Arguments ethers_tx : simpl never.

Lemma wei_literal :
  parseEther_call "0.01" = ([], Resolved 10000000000000000%Z).
Proof. vm_compute. reflexivity. Qed.

Lemma run_trace_app (t u : list Event) (s : State) :
  run_trace (t ++ u) s = run_trace u (run_trace t s).
Proof. unfold run_trace. apply fold_left_app. Qed.

(** *** Sample runs *)

Example native_send_run :
  executeTxNative Samples.connected =
  ([SetIsSending true;
    Invoke (CGetFeeQuotes (mkTx "0xB0B" "10000000000000000" (Some "0x")));
    Suspend; Invoke (CSendUserOperation (mkUserOp "op") "0xop"); Suspend;
    SetTransactionHash (Some "0xbeef");
    Console LLog "Transaction sent:" (Some "0xbeef"); SetIsSending false],
   Resolved tt).
Proof. vm_compute. reflexivity. Qed.

Example ethers_send_run :
  executeTxEthers Samples.BrowserProvider Samples.connected =
  ([Invoke CGetSigner; Suspend; SetIsSending true;
    Invoke (CSendTransaction (mkTx "0xB0B" "10000000000000000" None));
    Suspend; Invoke CWait; Suspend; SetTransactionHash (Some "0xfeed");
    SetIsSending false],
   Resolved tt).
Proof. vm_compute. reflexivity. Qed.

Example account_load_run :
  run_trace
    (trace (loadUserData Samples.formatEther Samples.formatBalance
              [false; true] Samples.connected))
    Samples.idle
  = mkState "0xA11CE" (Some Samples.profile) (Some "1500000000000000000")
      "0xB0B" false None.
Proof. vm_compute. reflexivity. Qed.

(** *** What each handler does, outcome by outcome *)

Lemma fetchBalance_runs
  (FE : Z -> string) (FB : string -> Outcome string) (r : Render)
  (address : string) :
  fetchBalance FE FB r address =
  match publicClient r with
  | None => ([], Resolved tt)
  | Some client =>
      match getBalance client address with
      | Rejected e =>
          ([Invoke (CGetBalance address); Suspend;
            Console LError "Error fetching balance:" (Some e);
            SetBalance (Some "0.0")],
           Resolved tt)
      | Resolved wei =>
          match FB (if (wei =? 0)%Z then "0.0" else FE wei) with
          | Resolved text =>
              ([Invoke (CGetBalance address); Suspend; SetBalance (Some text)],
               Resolved tt)
          | Rejected e =>
              ([Invoke (CGetBalance address); Suspend;
                Console LError "Error fetching balance:" (Some e);
                SetBalance (Some "0.0")],
               Resolved tt)
          end
      end
  end.
Proof.
  unfold fetchBalance, await, invoke, settle.
  run_cases; first [reflexivity | congruence].
Qed.

Lemma fetchUserInfo_runs (r : Render) :
  fetchUserInfo r =
  match getUserInfo r with
  | NotAFunction =>
      ([Console LWarn "Skipping getUserInfo: Function is not available." None],
       Resolved tt)
  | Callable (Resolved (Some info)) =>
      ([Console LLog "function" None; Invoke CGetUserInfo;
        SetUserInfo (Some info)],
       Resolved tt)
  | Callable (Resolved None) =>
      ([Console LLog "function" None; Invoke CGetUserInfo;
        Console LWarn "getUserInfo returned null or undefined." None],
       Resolved tt)
  | Callable (Rejected e) =>
      ([Console LLog "function" None; Invoke CGetUserInfo;
        Console LWarn "getUserInfo failed:" (Some e)],
       Resolved tt)
  end.
Proof.
  unfold fetchUserInfo, invoke.
  destruct (getUserInfo r) as [|[[info|]|e]]; reflexivity.
Qed.

Lemma executeTxNative_runs (r : Render) :
  executeTxNative r =
  match smartAccount r with
  | None =>
      ([SetIsSending true; Suspend;
        Console LError "User operation is undefined" None; SetIsSending false],
       Resolved tt)
  | Some account =>
      match getFeeQuotes account (native_tx r) with
      | Rejected e =>
          ([SetIsSending true; Invoke (CGetFeeQuotes (native_tx r)); Suspend;
            Console LError "Failed to send transaction:" (Some e);
            SetIsSending false],
           Resolved tt)
      | Resolved fq =>
          match userOp (gasless_quote fq),
                or_null (userOpHash (gasless_quote fq)) with
          | Some op, Some opHash =>
              match sendUserOperation account op opHash with
              | Resolved sent =>
                  ([SetIsSending true; Invoke (CGetFeeQuotes (native_tx r));
                    Suspend; Invoke (CSendUserOperation op opHash); Suspend;
                    SetTransactionHash (or_null sent);
                    Console LLog "Transaction sent:"
                      (Some (show_hash (or_null sent)));
                    SetIsSending false],
                   Resolved tt)
              | Rejected e =>
                  ([SetIsSending true; Invoke (CGetFeeQuotes (native_tx r));
                    Suspend; Invoke (CSendUserOperation op opHash); Suspend;
                    Console LError "Failed to send transaction:" (Some e);
                    SetIsSending false],
                   Resolved tt)
              end
          | _, _ =>
              ([SetIsSending true; Invoke (CGetFeeQuotes (native_tx r));
                Suspend; Console LError "User operation is undefined" None;
                SetIsSending false],
               Resolved tt)
          end
      end
  end.
Proof.
  unfold native_tx, amount_text, executeTxNative. rewrite wei_literal.
  unfold await, invoke, finally. run_cases; reflexivity.
Qed.

Lemma executeTxEthers_runs (BP : SmartAccount -> Provider) (r : Render) :
  executeTxEthers BP r =
  match customProvider BP r with
  | None => ([], Resolved tt)
  | Some provider =>
      match getSigner provider with
      | Rejected e => ([Invoke CGetSigner; Suspend], Rejected e)
      | Resolved signer =>
          match sendTransaction signer (ethers_tx r) with
          | Rejected e =>
              ([Invoke CGetSigner; Suspend; SetIsSending true;
                Invoke (CSendTransaction (ethers_tx r)); Suspend;
                Console LError "Failed to send transaction using ethers.js:"
                  (Some e);
                SetIsSending false],
               Resolved tt)
          | Resolved response =>
              match wait response with
              | Rejected e =>
                  ([Invoke CGetSigner; Suspend; SetIsSending true;
                    Invoke (CSendTransaction (ethers_tx r)); Suspend;
                    Invoke CWait; Suspend;
                    Console LError
                      "Failed to send transaction using ethers.js:" (Some e);
                    SetIsSending false],
                   Resolved tt)
              | Resolved receipt =>
                  ([Invoke CGetSigner; Suspend; SetIsSending true;
                    Invoke (CSendTransaction (ethers_tx r)); Suspend;
                    Invoke CWait; Suspend;
                    SetTransactionHash (or_null (option_map hash receipt));
                    SetIsSending false],
                   Resolved tt)
              end
          end
      end
  end.
Proof.
  unfold ethers_tx, amount_text, executeTxEthers. rewrite wei_literal.
  unfold await, invoke, finally. run_cases; reflexivity.
Qed.

(** *** Promises side by side *)

Lemma concat_segments (t : list Event) : List.concat (segments t) = t.
Proof.
  induction t as [|e t IH]; [reflexivity|].
  assert (Hcons : List.concat
            match segments t with
            | seg :: rest => (e :: seg) :: rest
            | [] => [[e]]
            end = e :: t).
  { destruct (segments t) as [|seg rest]; simpl in *; now rewrite <- IH. }
  destruct e; simpl; try exact Hcons. now rewrite IH.
Qed.

Lemma never_suspended (t : list Event) :
  forallb not_suspend t = true -> sync_prefix t = t /\ after_suspend t = [].
Proof.
  induction t as [|e t IH]; simpl; [now split|].
  intros H. apply andb_prop in H as [He Ht]. destruct (IH Ht) as [Hp Ha].
  destruct e; simpl in *; try discriminate; now rewrite Hp.
Qed.

Lemma interleave_right_done (sched : list bool) (a : list (list Event)) :
  fst (interleave sched a []) = List.concat a.
Proof. destruct sched as [|[|] sc], a as [|x a]; reflexivity. Qed.

(** When the second function never gives up control, the schedule has
    nothing to decide: the first function runs to its first suspension, the
    second runs whole, the first is resumed. *)
Lemma promise_all_second_sync (A B : Type)
  (sched : list bool) (p : Async A) (q : Async B) (x : A) (y : B) :
  forallb not_suspend (trace q) = true ->
  settled p = Resolved x -> settled q = Resolved y ->
  promise_all sched p q =
  (sync_prefix (trace p) ++ trace q ++ after_suspend (trace p),
   Resolved (x, y)).
Proof.
  intros Hq Hp Hy. unfold promise_all.
  destruct (never_suspended _ Hq) as [Hpre Hpost].
  rewrite Hpost, Hpre, Hp, Hy. simpl segments.
  pose proof (interleave_right_done sched
                (segments (after_suspend (trace p)))) as Hi.
  destruct (interleave sched (segments (after_suspend (trace p))) [])
    as [t w]. simpl in Hi. subst t. now rewrite concat_segments.
Qed.

Lemma fetchBalance_settles
  (FE : Z -> string) (FB : string -> Outcome string) (r : Render)
  (address : string) :
  settled (fetchBalance FE FB r address) = Resolved tt.
Proof. rewrite fetchBalance_runs. repeat split_match; reflexivity. Qed.

Lemma fetchUserInfo_settles (r : Render) :
  settled (fetchUserInfo r) = Resolved tt /\
  forallb not_suspend (trace (fetchUserInfo r)) = true.
Proof. rewrite fetchUserInfo_runs. repeat split_match; split; reflexivity. Qed.

Lemma loadUserData_runs
  (FE : Z -> string) (FB : string -> Outcome string) (sched : list bool)
  (r : Render) :
  loadUserData FE FB sched r =
  if negb (isConnected r) then ([], Resolved tt)
  else
    match smartAccount r with
    | None => ([], Resolved tt)
    | Some account =>
        match getAddress account with
        | Rejected e =>
            ([Invoke CGetAddress; Suspend;
              Console LError "Error loading account data:" (Some e)],
             Resolved tt)
        | Resolved address =>
            ([Invoke CGetAddress; Suspend; SetUserAddress address] ++
             sync_prefix (trace (fetchBalance FE FB r address)) ++
             trace (fetchUserInfo r) ++
             after_suspend (trace (fetchBalance FE FB r address)) ++ [Suspend],
             Resolved tt)
        end
    end.
Proof.
  unfold loadUserData.
  destruct (isConnected r); [|reflexivity]. cbn [negb].
  destruct (smartAccount r) as [account|]; [|reflexivity].
  unfold invoke. cbn [await].
  destruct (getAddress account) as [address|e]; [|reflexivity].
  destruct (fetchUserInfo_settles r) as [Hu Hsync].
  cbn -[promise_all fetchBalance fetchUserInfo].
  rewrite (@promise_all_second_sync _ _ sched _ _ tt tt Hsync
             (fetchBalance_settles FE FB r address) Hu).
  cbn -[fetchBalance fetchUserInfo]. rewrite <- !app_assoc. reflexivity.
Qed.

(** *** The senders leave the account panel alone *)

Lemma same_panel_refl (s : State) : same_panel s s.
Proof. repeat split. Qed.

Lemma send_event_panel (e : Event) (s0 s : State) :
  send_event e = true -> same_panel s0 s -> same_panel s0 (apply_event s e).
Proof.
  intros He (Ha & Hi & Hb & Hr).
  destruct e; simpl in He; try discriminate; repeat split; simpl; assumption.
Qed.

Lemma send_events_panel (t : list Event) :
  forallb send_event t = true ->
  forall s0 s, same_panel s0 s ->
    Forall (same_panel s0) (scan t s) /\ same_panel s0 (run_trace t s).
Proof.
  induction t as [|e t IH]; simpl; intros Ht s0 s Hs.
  - split; [constructor | exact Hs].
  - apply andb_prop in Ht as [He Ht].
    pose proof (send_event_panel e He Hs) as Hs'.
    destruct (IH Ht s0 _ Hs') as [Hscan Hrun].
    split; [constructor; assumption | exact Hrun].
Qed.

Lemma executeTxNative_send_events (r : Render) :
  forallb send_event (trace (executeTxNative r)) = true.
Proof. rewrite executeTxNative_runs. repeat split_match; reflexivity. Qed.

Lemma executeTxEthers_send_events (BP : SmartAccount -> Provider) (r : Render) :
  forallb send_event (trace (executeTxEthers BP r)) = true.
Proof. rewrite executeTxEthers_runs. repeat split_match; reflexivity. Qed.

(** C10. Whatever the handles do, a run of [executeTxNative] or of
    [executeTxEthers] leaves [userAddress], [userInfo], [balance] and
    [recipientAddress] as they were: in the store it ends with and in every
    store it passes through. *)
Theorem senders_keep_panel_state
  (BP : SmartAccount -> Provider) (r : Render) (s : State) :
  (Forall (same_panel s) (scan (trace (executeTxNative r)) s) /\
   same_panel s (run_trace (trace (executeTxNative r)) s)) /\
  (Forall (same_panel s) (scan (trace (executeTxEthers BP r)) s) /\
   same_panel s (run_trace (trace (executeTxEthers BP r)) s)).
Proof.
  split.
  - apply send_events_panel;
      [apply executeTxNative_send_events | apply same_panel_refl].
  - apply send_events_panel;
      [apply executeTxEthers_send_events | apply same_panel_refl].
Qed.

(** *** The busy flag *)

Lemma executeTxNative_busy (r : Render) (s : State) :
  settled (executeTxNative r) = Resolved tt /\
  trace (executeTxNative r) <> [] /\
  busy_until_done (trace (executeTxNative r)) s.
Proof.
  unfold busy_until_done. rewrite executeTxNative_runs.
  repeat split_match;
    (split; [reflexivity | split; [discriminate | busy_done]]).
Qed.

Lemma executeTxEthers_busy
  (BP : SmartAccount -> Provider) (r : Render) (s : State)
  (provider : Provider) (signer : Signer) :
  customProvider BP r = Some provider ->
  getSigner provider = Resolved signer ->
  exists body,
    trace (executeTxEthers BP r) = [Invoke CGetSigner; Suspend] ++ body /\
    body <> [] /\
    busy_until_done body s /\
    settled (executeTxEthers BP r) = Resolved tt.
Proof.
  unfold busy_until_done. intros Hp Hs.
  rewrite executeTxEthers_runs, Hp, Hs.
  repeat split_match;
    (eexists; split;
     [reflexivity | split; [discriminate | split; [busy_done | reflexivity]]]).
Qed.

Lemma executeTxNative_brackets (r : Render) :
  exists mid,
    trace (executeTxNative r) = SetIsSending true :: mid ++ [SetIsSending false].
Proof.
  rewrite executeTxNative_runs.
  repeat split_match; cbn [trace fst]; take_mid; reflexivity.
Qed.

Lemma executeTxEthers_brackets
  (BP : SmartAccount -> Provider) (r : Render) (s : State)
  (provider : Provider) (signer : Signer) :
  customProvider BP r = Some provider ->
  getSigner provider = Resolved signer ->
  exists mid,
    trace (executeTxEthers BP r)
    = [Invoke CGetSigner; Suspend] ++
      SetIsSending true :: mid ++ [SetIsSending false] /\
    busy_until_done (SetIsSending true :: mid ++ [SetIsSending false]) s /\
    settled (executeTxEthers BP r) = Resolved tt.
Proof.
  intros Hp Hs. rewrite executeTxEthers_runs, Hp, Hs.
  repeat split_match; cbn [trace fst settled snd app]; take_mid;
    (split; [reflexivity | split; [busy_done | reflexivity]]).
Qed.

(** C1, amended.  [executeTxNative] sets the flag as its first effect and
    clears it as its last; the flag is set in every store the call passes
    through and cleared in the one it ends with, whatever the handles do,
    and the call never rejects.  [executeTxEthers] has no effect when there
    is no provider; with a provider whose signer is obtained, its first
    effect after obtaining the signer sets the flag and its last effect
    clears it; the flag is set in every store that part of the call passes
    through and cleared in the store the call ends with, whether the send
    resolves or rejects. *)
Theorem busy_flag_spans_the_send
  (BP : SmartAccount -> Provider) (r : Render) (s : State) :
  (settled (executeTxNative r) = Resolved tt /\
   (exists mid,
      trace (executeTxNative r)
      = SetIsSending true :: mid ++ [SetIsSending false]) /\
   busy_until_done (trace (executeTxNative r)) s) /\
  (customProvider BP r = None -> executeTxEthers BP r = ([], Resolved tt)) /\
  (forall provider signer,
     customProvider BP r = Some provider ->
     getSigner provider = Resolved signer ->
     exists mid,
       trace (executeTxEthers BP r)
       = [Invoke CGetSigner; Suspend] ++
         SetIsSending true :: mid ++ [SetIsSending false] /\
       busy_until_done (SetIsSending true :: mid ++ [SetIsSending false]) s /\
       settled (executeTxEthers BP r) = Resolved tt).
Proof.
  split; [|split].
  - destruct (executeTxNative_busy r s) as (Hsettled & _ & Hbusy).
    split; [exact Hsettled | split; [apply executeTxNative_brackets | exact Hbusy]].
  - intros Hp. now rewrite executeTxEthers_runs, Hp.
  - intros provider signer. apply executeTxEthers_brackets.
Qed.

(** The provider-based sender obtains its signer before it sets the flag:
    with the sample handles, the first store the call passes through still
    has the flag cleared. *)
Lemma busy_for_whole_call_fails : ~ busy_for_whole_call.
Proof.
  intros H.
  destruct (H Samples.BrowserProvider Samples.connected Samples.idle eq_refl)
    as [_ [Hall _]].
  vm_compute in Hall. inversion Hall as [|st rest Hbusy _].
  discriminate Hbusy.
Qed.

Lemma busy_flag_spans_the_send_sample :
  exists mid,
    trace (executeTxEthers Samples.BrowserProvider Samples.connected)
    = [Invoke CGetSigner; Suspend] ++
      SetIsSending true :: mid ++ [SetIsSending false] /\
    busy_until_done (SetIsSending true :: mid ++ [SetIsSending false])
      Samples.idle /\
    settled (executeTxEthers Samples.BrowserProvider Samples.connected)
    = Resolved tt.
Proof.
  destruct (busy_flag_spans_the_send Samples.BrowserProvider Samples.connected
              Samples.idle) as (_ & _ & Hsend).
  exact (Hsend _ _ eq_refl eq_refl).
Defined.

(** *** The native sender and the fee quotes *)

(** C9. Without a smart account the optional call yields no fee quotes, so
    no sponsored variant; the call logs the error, resolves, leaves
    [transactionHash] as it was and ends with the flag cleared. *)
Theorem executeTxNative_without_account (r : Render) (s : State) :
  smartAccount r = None ->
  fee_quotes r = Resolved None /\
  userOp (gasless_quote None) = None /\
  executeTxNative r =
    ([SetIsSending true; Suspend;
      Console LError "User operation is undefined" None; SetIsSending false],
     Resolved tt) /\
  transactionHash (run_trace (trace (executeTxNative r)) s) = transactionHash s /\
  isSending (run_trace (trace (executeTxNative r)) s) = false.
Proof.
  intros Ha. unfold fee_quotes. rewrite executeTxNative_runs, Ha.
  repeat split.
Qed.

Lemma executeTxNative_without_account_sample :
  fee_quotes Samples.no_account = Resolved None /\
  userOp (gasless_quote None) = None /\
  executeTxNative Samples.no_account =
    ([SetIsSending true; Suspend;
      Console LError "User operation is undefined" None; SetIsSending false],
     Resolved tt) /\
  transactionHash
    (run_trace (trace (executeTxNative Samples.no_account)) Samples.after_a_send)
  = transactionHash Samples.after_a_send /\
  isSending
    (run_trace (trace (executeTxNative Samples.no_account)) Samples.after_a_send)
  = false.
Proof.
  exact (executeTxNative_without_account Samples.no_account
           Samples.after_a_send eq_refl).
Defined.

(** C3.  Let the fee quotes resolve.  If the sponsored variant, its operation
    or its hash is missing, the call logs the error, submits nothing, leaves
    [transactionHash] as it was and resolves; the test is [userOp &&
    userOpHash], so a hash that is the empty text counts as missing.
    Otherwise the call submits that operation with that hash and stores the
    resulting hash: when the submission resolves with a hash,
    [transactionHash] is that hash (it is [txHash], the result or [null]);
    when it rejects, the failure is logged and [transactionHash] stays.  In
    every case the call resolves. *)
Theorem executeTxNative_sponsored_or_logged
  (r : Render) (s : State) (fq : option FeeQuotesResult) :
  fee_quotes r = Resolved fq ->
  settled (executeTxNative r) = Resolved tt /\
  (userOp (gasless_quote fq) = None \/ userOpHash (gasless_quote fq) = None \/
   userOpHash (gasless_quote fq) = Some EmptyString ->
   In (Console LError "User operation is undefined" None)
     (trace (executeTxNative r)) /\
   (forall op opHash,
      ~ In (Invoke (CSendUserOperation op opHash)) (trace (executeTxNative r))) /\
   transactionHash (run_trace (trace (executeTxNative r)) s) = transactionHash s) /\
  (forall op opHash,
     userOp (gasless_quote fq) = Some op ->
     userOpHash (gasless_quote fq) = Some opHash ->
     opHash <> EmptyString ->
     exists account,
       smartAccount r = Some account /\
       In (Invoke (CSendUserOperation op opHash)) (trace (executeTxNative r)) /\
       match sendUserOperation account op opHash with
       | Resolved sent =>
           transactionHash (run_trace (trace (executeTxNative r)) s)
           = or_null sent /\
           (forall txHash,
              sent = Some txHash -> txHash <> EmptyString ->
              transactionHash (run_trace (trace (executeTxNative r)) s)
              = Some txHash)
       | Rejected e =>
           In (Console LError "Failed to send transaction:" (Some e))
             (trace (executeTxNative r)) /\
           transactionHash (run_trace (trace (executeTxNative r)) s)
           = transactionHash s
       end).
Proof.
  intros Hq. rewrite executeTxNative_runs. unfold fee_quotes in Hq.
  destruct (smartAccount r) as [account|].
  - rewrite Hq. split; [|split].
    + repeat split_match; reflexivity.
    + intros Habs.
      assert (Hno : userOp (gasless_quote fq) = None \/
                    or_null (userOpHash (gasless_quote fq)) = None).
      { destruct Habs as [H|[H|H]]; [left; exact H | right; now rewrite H ..]. }
      destruct (userOp (gasless_quote fq)) as [op|];
        [destruct (or_null (userOpHash (gasless_quote fq))) as [opHash|];
         [destruct Hno; discriminate|]|].
      all: split; [in_trace | split; [intros ? ?; not_in_trace | reflexivity]].
    + intros op opHash Hop Hhash Hne. exists account. rewrite Hop, Hhash.
      cbn [or_null]. destruct (String.eqb_spec opHash EmptyString) as [->|_];
        [now elim Hne|].
      split; [reflexivity|].
      destruct (sendUserOperation account op opHash) as [sent|e].
      * split; [in_trace | split; [reflexivity|]].
        intros txHash -> Hfull. cbn.
        destruct (String.eqb_spec txHash EmptyString) as [->|_];
          [now elim Hfull | reflexivity].
      * split; [in_trace | split; [in_trace | reflexivity]].
  - injection Hq as <-. cbn. split; [reflexivity|split].
    + intros _.
      split; [in_trace | split; [intros ? ?; not_in_trace | reflexivity]].
    + intros op opHash Hop. discriminate Hop.
Qed.

Lemma executeTxNative_sponsored_or_logged_sample :
  (In (Console LError "User operation is undefined" None)
     (trace (executeTxNative Samples.unsponsored)) /\
   (forall op opHash,
      ~ In (Invoke (CSendUserOperation op opHash))
          (trace (executeTxNative Samples.unsponsored))) /\
   transactionHash
     (run_trace (trace (executeTxNative Samples.unsponsored))
        Samples.after_a_send)
   = transactionHash Samples.after_a_send) /\
  In (Invoke (CSendUserOperation (mkUserOp "op") "0xop"))
    (trace (executeTxNative Samples.connected)) /\
  transactionHash
    (run_trace (trace (executeTxNative Samples.connected)) Samples.idle)
  = Some "0xbeef".
Proof.
  split.
  - destruct (@executeTxNative_sponsored_or_logged Samples.unsponsored
                Samples.after_a_send (Some (mkFeeQuotes None)) eq_refl)
      as (_ & Habsent & _).
    apply Habsent. left. reflexivity.
  - destruct (@executeTxNative_sponsored_or_logged Samples.connected
                Samples.idle (Some (mkFeeQuotes (Some Samples.quote))) eq_refl)
      as (_ & _ & Hpresent).
    destruct (Hpresent (mkUserOp "op") "0xop" eq_refl eq_refl)
      as (account & Haccount & Hsubmitted & Hstored); [discriminate|].
    injection Haccount as <-.
    split; [exact Hsubmitted | exact (proj1 Hstored)].
Defined.

(** *** The fetchers *)

(** C4. [fetchBalance] never rejects.  Without a read client it has no
    effect at all.  With one, for every address, a rejected balance query
    (and likewise a failure while formatting the answer) is logged and sets
    [balance] to the text 0.0. *)
Theorem fetchBalance_falls_back
  (FE : Z -> string) (FB : string -> Outcome string) (r : Render)
  (address : string) (s : State) :
  settled (fetchBalance FE FB r address) = Resolved tt /\
  (publicClient r = None -> trace (fetchBalance FE FB r address) = []) /\
  (forall client e,
     publicClient r = Some client ->
     getBalance client address = Rejected e ->
     In (Console LError "Error fetching balance:" (Some e))
       (trace (fetchBalance FE FB r address)) /\
     balance (run_trace (trace (fetchBalance FE FB r address)) s)
     = Some "0.0") /\
  (forall client wei e,
     publicClient r = Some client ->
     getBalance client address = Resolved wei ->
     FB (if (wei =? 0)%Z then "0.0" else FE wei) = Rejected e ->
     In (Console LError "Error fetching balance:" (Some e))
       (trace (fetchBalance FE FB r address)) /\
     balance (run_trace (trace (fetchBalance FE FB r address)) s)
     = Some "0.0").
Proof.
  split; [apply fetchBalance_settles|]. rewrite fetchBalance_runs.
  split; [|split].
  - intros Hc. now rewrite Hc.
  - intros client e Hc Hb. rewrite Hc, Hb. split; [in_trace | reflexivity].
  - intros client wei e Hc Hb Hf. rewrite Hc, Hb, Hf.
    split; [in_trace | reflexivity].
Qed.

Lemma fetchBalance_falls_back_sample :
  In (Console LError "Error fetching balance:" (Some "network error"))
    (trace (fetchBalance Samples.formatEther Samples.formatBalance
              Samples.balance_down "0xA11CE")) /\
  balance
    (run_trace
       (trace (fetchBalance Samples.formatEther Samples.formatBalance
                 Samples.balance_down "0xA11CE"))
       Samples.idle)
  = Some "0.0".
Proof.
  destruct (fetchBalance_falls_back Samples.formatEther Samples.formatBalance
              Samples.balance_down "0xA11CE" Samples.idle)
    as (_ & _ & Hdown & _).
  exact (Hdown Samples.client_down "network error" eq_refl eq_refl).
Defined.

(** C7. [fetchUserInfo] never rejects.  When the accessor is not a function,
    when it returns nothing and when it throws, a warning is logged and the
    store is left as it was; [userInfo] is written only when the accessor
    returns a profile, and then it is that profile. *)
Theorem fetchUserInfo_updates_only_on_profile (r : Render) (s : State) :
  settled (fetchUserInfo r) = Resolved tt /\
  (getUserInfo r = NotAFunction ->
   In (Console LWarn "Skipping getUserInfo: Function is not available." None)
     (trace (fetchUserInfo r)) /\
   run_trace (trace (fetchUserInfo r)) s = s) /\
  (getUserInfo r = Callable (Resolved None) ->
   In (Console LWarn "getUserInfo returned null or undefined." None)
     (trace (fetchUserInfo r)) /\
   run_trace (trace (fetchUserInfo r)) s = s) /\
  (forall e,
     getUserInfo r = Callable (Rejected e) ->
     In (Console LWarn "getUserInfo failed:" (Some e)) (trace (fetchUserInfo r)) /\
     run_trace (trace (fetchUserInfo r)) s = s) /\
  (forall info,
     getUserInfo r = Callable (Resolved (Some info)) ->
     userInfo (run_trace (trace (fetchUserInfo r)) s) = Some info) /\
  (userInfo (run_trace (trace (fetchUserInfo r)) s) <> userInfo s ->
   exists info, getUserInfo r = Callable (Resolved (Some info))).
Proof.
  split; [apply fetchUserInfo_settles|]. rewrite fetchUserInfo_runs.
  split; [|split; [|split; [|split]]].
  - intros H. rewrite H. split; [in_trace | reflexivity].
  - intros H. rewrite H. split; [in_trace | reflexivity].
  - intros e H. rewrite H. split; [in_trace | reflexivity].
  - intros info H. now rewrite H.
  - destruct (getUserInfo r) as [|[[info|]|e]]; intros Hchanged;
      try (now elim Hchanged).
    now exists info.
Qed.

Lemma fetchUserInfo_updates_only_on_profile_sample :
  (In (Console LWarn "Skipping getUserInfo: Function is not available." None)
     (trace (fetchUserInfo Samples.no_account)) /\
   run_trace (trace (fetchUserInfo Samples.no_account)) Samples.after_a_send
   = Samples.after_a_send) /\
  userInfo (run_trace (trace (fetchUserInfo Samples.connected)) Samples.idle)
  = Some Samples.profile.
Proof.
  split.
  - destruct (fetchUserInfo_updates_only_on_profile Samples.no_account
                Samples.after_a_send) as (_ & Hskip & _).
    exact (Hskip eq_refl).
  - destruct (fetchUserInfo_updates_only_on_profile Samples.connected
                Samples.idle) as (_ & _ & _ & _ & Hset & _).
    exact (Hset Samples.profile eq_refl).
Defined.

(** *** The transfer the senders build *)

(** C8. The literal 0.01 is 10^16 base units and is carried as the decimal
    text of that number.  Every fee-quote request of the native sender is for
    the transfer of that amount to the entered recipient with the payload 0x,
    and the request is made whenever there is a smart account; every
    transaction the provider-based sender hands to the signer is the transfer
    of the same amount to the entered recipient, with no payload, and it is
    handed over whenever the signer is obtained. *)
Theorem senders_build_the_fixed_transfer
  (BP : SmartAccount -> Provider) (r : Render) :
  (parseEther "0.01" = Some (10 ^ 16)%Z /\
   toString (10 ^ 16) = "10000000000000000") /\
  (native_tx r
   = mkTx (recipientAddress (view r)) "10000000000000000" (Some "0x") /\
   ethers_tx r = mkTx (recipientAddress (view r)) "10000000000000000" None) /\
  (forall tx,
     In (Invoke (CGetFeeQuotes tx)) (trace (executeTxNative r)) ->
     tx = native_tx r) /\
  (forall tx,
     In (Invoke (CSendTransaction tx)) (trace (executeTxEthers BP r)) ->
     tx = ethers_tx r) /\
  (forall account,
     smartAccount r = Some account ->
     In (Invoke (CGetFeeQuotes (native_tx r))) (trace (executeTxNative r))) /\
  (forall provider signer,
     customProvider BP r = Some provider ->
     getSigner provider = Resolved signer ->
     In (Invoke (CSendTransaction (ethers_tx r)))
       (trace (executeTxEthers BP r))).
Proof.
  split; [split; vm_compute; reflexivity|].
  split; [split; reflexivity|].
  rewrite executeTxNative_runs, executeTxEthers_runs.
  split; [|split; [|split]].
  - intros tx. repeat split_match; only_tx.
  - intros tx. repeat split_match; only_tx.
  - intros account Ha. rewrite Ha. repeat split_match; in_trace.
  - intros provider signer Hp Hs. rewrite Hp, Hs.
    repeat split_match; in_trace.
Qed.

Lemma senders_build_the_fixed_transfer_sample :
  In (Invoke (CGetFeeQuotes (mkTx "0xB0B" "10000000000000000" (Some "0x"))))
    (trace (executeTxNative Samples.connected)) /\
  In (Invoke (CSendTransaction (mkTx "0xB0B" "10000000000000000" None)))
    (trace (executeTxEthers Samples.BrowserProvider Samples.connected)).
Proof.
  destruct (senders_build_the_fixed_transfer Samples.BrowserProvider
              Samples.connected) as (_ & _ & _ & _ & Hnative & Hethers).
  split.
  - exact (Hnative Samples.account eq_refl).
  - exact (Hethers _ Samples.signer eq_refl eq_refl).
Defined.

(** *** Loading the account *)

(** C2. [loadUserData] never rejects, under any schedule of the two
    fetches.  It has no effect unless the page is connected and there is a
    smart account.  Otherwise, once the address resolves, it is stored in
    [userAddress]; the balance query is started, the user-info fetch runs,
    and only then is the balance fetch resumed; each fetch settles on its own
    ([balance] ends as the balance fetch alone leaves it, [userInfo] as the
    user-info fetch alone leaves it), so a profile is stored even when the
    balance query fails and a balance is stored even when the accessor
    fails.  When the address does not resolve, the failure is logged and the
    store is left as it was. *)
Theorem loadUserData_fetches_independently
  (FE : Z -> string) (FB : string -> Outcome string) (sched : list bool)
  (r : Render) (s : State) :
  settled (loadUserData FE FB sched r) = Resolved tt /\
  (isConnected r = false \/ smartAccount r = None ->
   trace (loadUserData FE FB sched r) = []) /\
  (forall account e,
     isConnected r = true -> smartAccount r = Some account ->
     getAddress account = Rejected e ->
     In (Console LError "Error loading account data:" (Some e))
       (trace (loadUserData FE FB sched r)) /\
     run_trace (trace (loadUserData FE FB sched r)) s = s) /\
  (forall account address,
     isConnected r = true -> smartAccount r = Some account ->
     getAddress account = Resolved address ->
     let final := run_trace (trace (loadUserData FE FB sched r)) s in
     trace (loadUserData FE FB sched r)
     = [Invoke CGetAddress; Suspend; SetUserAddress address] ++
       sync_prefix (trace (fetchBalance FE FB r address)) ++
       trace (fetchUserInfo r) ++
       after_suspend (trace (fetchBalance FE FB r address)) ++ [Suspend] /\
     userAddress final = address /\
     balance final
     = balance (run_trace (trace (fetchBalance FE FB r address)) s) /\
     userInfo final = userInfo (run_trace (trace (fetchUserInfo r)) s) /\
     settled (fetchBalance FE FB r address) = Resolved tt /\
     settled (fetchUserInfo r) = Resolved tt /\
     (forall info,
        getUserInfo r = Callable (Resolved (Some info)) ->
        userInfo final = Some info) /\
     (forall client wei text,
        publicClient r = Some client ->
        getBalance client address = Resolved wei ->
        FB (if (wei =? 0)%Z then "0.0" else FE wei) = Resolved text ->
        balance final = Some text)).
Proof.
  rewrite loadUserData_runs. split; [|split; [|split]].
  - repeat split_match; reflexivity.
  - intros [Hc|Ha]; [now rewrite Hc|].
    rewrite Ha. now destruct (isConnected r).
  - intros account e Hc Ha He. rewrite Hc, Ha, He.
    split; [in_trace | reflexivity].
  - intros account address Hc Ha Hr final. subst final.
    rewrite Hc, Ha, Hr. cbn [negb trace fst]. split; [reflexivity|].
    split; [|split; [|split; [|split; [|split; [|split]]]]].
    + rewrite fetchBalance_runs, fetchUserInfo_runs.
      repeat split_match; reflexivity.
    + rewrite fetchBalance_runs, fetchUserInfo_runs.
      repeat split_match; reflexivity.
    + rewrite fetchBalance_runs, fetchUserInfo_runs.
      repeat split_match; reflexivity.
    + apply fetchBalance_settles.
    + apply fetchUserInfo_settles.
    + intros info Hi. rewrite fetchBalance_runs, fetchUserInfo_runs, Hi.
      repeat split_match; reflexivity.
    + intros client wei text Hp Hb Hf.
      rewrite fetchBalance_runs, Hp, Hb, Hf, fetchUserInfo_runs.
      repeat split_match; reflexivity.
Qed.

Lemma loadUserData_fetches_independently_sample :
  userAddress
    (run_trace
       (trace (loadUserData Samples.formatEther Samples.formatBalance
                 [true; false] Samples.balance_down))
       Samples.idle)
  = "0xA11CE" /\
  userInfo
    (run_trace
       (trace (loadUserData Samples.formatEther Samples.formatBalance
                 [true; false] Samples.balance_down))
       Samples.idle)
  = Some Samples.profile /\
  balance
    (run_trace
       (trace (loadUserData Samples.formatEther Samples.formatBalance
                 [true; false] Samples.balance_down))
       Samples.idle)
  = Some "0.0".
Proof.
  destruct (loadUserData_fetches_independently Samples.formatEther
              Samples.formatBalance [true; false] Samples.balance_down
              Samples.idle) as (_ & _ & _ & Hload).
  destruct (Hload Samples.account "0xA11CE" eq_refl eq_refl eq_refl)
    as (_ & Haddress & Hbalance & _ & _ & _ & Hprofile & _).
  split; [exact Haddress | split; [exact (Hprofile _ eq_refl) | exact Hbalance]].
Defined.

(** *** The transaction hash *)

(** C5, amended.  [transactionHash] is written by a sender whose send goes
    through, and by nothing else.  When the native sender's fee quotes
    resolve with a sponsored operation and the submission of that operation
    has been made and resolves, [transactionHash] becomes the returned hash,
    or [null] when no hash is returned; when the provider-based sender's
    confirmation has been awaited and resolves, it becomes the receipt's
    hash, or [null] without a receipt.
    A send that is skipped or fails at any step, and every other handler,
    never calls [setTransactionHash]. *)
Theorem transactionHash_written_by_resolved_sends
  (FE : Z -> string) (FB : string -> Outcome string)
  (BP : SmartAccount -> Provider) (r : Render) (h : Handler) (s : State) :
  let t := trace (handle FE FB BP r h) in
  let final := transactionHash (run_trace t s) in
  (h = OnSendNative ->
   (forall op opHash sent,
      native_send_resolves r op opHash sent ->
      In (Invoke (CSendUserOperation op opHash)) t /\
      In (SetTransactionHash (or_null sent)) t /\ final = or_null sent) /\
   ((forall op opHash sent, ~ native_send_resolves r op opHash sent) ->
    ~ writes_hash t /\ final = transactionHash s)) /\
  (h = OnSendEthers ->
   (forall receipt,
      ethers_send_resolves BP r receipt ->
      In (Invoke CWait) t /\
      In (SetTransactionHash (or_null (option_map hash receipt))) t /\
      final = or_null (option_map hash receipt)) /\
   ((forall receipt, ~ ethers_send_resolves BP r receipt) ->
    ~ writes_hash t /\ final = transactionHash s)) /\
  (h <> OnSendNative -> h <> OnSendEthers ->
   ~ writes_hash t /\ final = transactionHash s).
Proof.
  cbv zeta. split; [|split].
  - intros ->. cbn [handle]. rewrite executeTxNative_runs. split.
    + intros op oh sent (a & fq & Ha & Hq & Hop & Hoh & Hs).
      rewrite Ha, Hq, Hop, Hoh, Hs.
      split; [in_trace | split; [in_trace | reflexivity]].
    + intros Hnone.
      destruct (smartAccount r) as [a|] eqn:Ha;
        [|split; [no_hash_write | reflexivity]].
      destruct (getFeeQuotes a (native_tx r)) as [fq|e] eqn:Hq;
        [|split; [no_hash_write | reflexivity]].
      destruct (userOp (gasless_quote fq)) as [op|] eqn:Hop;
        [|split; [no_hash_write | reflexivity]].
      destruct (or_null (userOpHash (gasless_quote fq))) as [oh|] eqn:Hoh;
        [|split; [no_hash_write | reflexivity]].
      destruct (sendUserOperation a op oh) as [sent|e] eqn:Hs;
        [|split; [no_hash_write | reflexivity]].
      elim (Hnone op oh sent). now exists a, fq.
  - intros ->. cbn [handle]. rewrite executeTxEthers_runs. split.
    + intros receipt (p & sg & rs & Hp & Hsg & Hrs & Hw).
      rewrite Hp, Hsg, Hrs, Hw.
      split; [in_trace | split; [in_trace | reflexivity]].
    + intros Hnone.
      destruct (customProvider BP r) as [p|] eqn:Hp;
        [|split; [no_hash_write | reflexivity]].
      destruct (getSigner p) as [sg|e] eqn:Hsg;
        [|split; [no_hash_write | reflexivity]].
      destruct (sendTransaction sg (ethers_tx r)) as [rs|e] eqn:Hrs;
        [|split; [no_hash_write | reflexivity]].
      destruct (wait rs) as [receipt|e] eqn:Hw;
        [|split; [no_hash_write | reflexivity]].
      elim (Hnone receipt). now exists p, sg, rs.
  - intros Hn He. destruct h as [sched| | |text| |]; cbn [handle];
      try (now elim Hn); try (now elim He).
    + rewrite loadUserData_runs, fetchUserInfo_runs.
      repeat split_match; try rewrite fetchBalance_runs; repeat split_match;
        (split; [no_hash_write | reflexivity]).
    + rewrite fetchBalance_runs.
      repeat split_match; (split; [no_hash_write | reflexivity]).
    + split; [no_hash_write | reflexivity].
    + split; [no_hash_write | reflexivity].
Qed.

Lemma transactionHash_written_by_resolved_sends_sample :
  In (Invoke (CSendUserOperation (mkUserOp "op") "0xop"))
    (trace (handle Samples.formatEther Samples.formatBalance
              Samples.BrowserProvider Samples.unhashed OnSendNative)) /\
  In (SetTransactionHash None)
    (trace (handle Samples.formatEther Samples.formatBalance
              Samples.BrowserProvider Samples.unhashed OnSendNative)) /\
  transactionHash
    (run_trace
       (trace (handle Samples.formatEther Samples.formatBalance
                 Samples.BrowserProvider Samples.unhashed OnSendNative))
       Samples.after_a_send)
  = None.
Proof.
  destruct (transactionHash_written_by_resolved_sends Samples.formatEther
              Samples.formatBalance Samples.BrowserProvider Samples.unhashed
              OnSendNative Samples.after_a_send) as [Hnative _].
  destruct (Hnative eq_refl) as [Hwritten _].
  apply (Hwritten (mkUserOp "op") "0xop" None).
  exists Samples.account_no_hash, (Some (mkFeeQuotes (Some Samples.quote))).
  repeat split.
Defined.

(** A submission that resolves without a hash takes the stored hash away. *)
Lemma hash_never_cleared_fails : ~ hash_never_cleared.
Proof.
  intros H.
  apply (H Samples.formatEther Samples.formatBalance Samples.BrowserProvider
           Samples.unhashed OnSendNative Samples.after_a_send).
  - discriminate.
  - vm_compute. reflexivity.
Qed.

(** C6.  When the provider-based send resolves a receipt, the call resolves
    and [transactionHash] is exactly the receipt's hash.  A receipt carries
    the hash of its transaction, 32 bytes in hexadecimal, which is never the
    empty text. *)
Theorem receipt_hash_is_stored
  (BP : SmartAccount -> Provider) (r : Render) (s : State)
  (provider : Provider) (signer : Signer) (response : TxResponse)
  (receipt : TxReceipt) :
  customProvider BP r = Some provider ->
  getSigner provider = Resolved signer ->
  sendTransaction signer (ethers_tx r) = Resolved response ->
  wait response = Resolved (Some receipt) ->
  hash receipt <> EmptyString ->
  settled (executeTxEthers BP r) = Resolved tt /\
  In (SetTransactionHash (Some (hash receipt))) (trace (executeTxEthers BP r)) /\
  transactionHash (run_trace (trace (executeTxEthers BP r)) s)
  = Some (hash receipt).
Proof.
  intros Hp Hs Hsend Hwait Hfull.
  rewrite executeTxEthers_runs, Hp, Hs, Hsend, Hwait. cbn.
  destruct (String.eqb_spec (hash receipt) EmptyString) as [Hempty|_];
    [now elim Hfull|].
  split; [reflexivity | split; [in_trace | reflexivity]].
Qed.

Lemma receipt_hash_is_stored_sample :
  settled (executeTxEthers Samples.BrowserProvider Samples.connected)
  = Resolved tt /\
  In (SetTransactionHash (Some "0xfeed"))
    (trace (executeTxEthers Samples.BrowserProvider Samples.connected)) /\
  transactionHash
    (run_trace (trace (executeTxEthers Samples.BrowserProvider Samples.connected))
       Samples.idle)
  = Some "0xfeed".
Proof.
  apply (@receipt_hash_is_stored Samples.BrowserProvider Samples.connected
           Samples.idle _ Samples.signer Samples.response Samples.receipt
           eq_refl eq_refl eq_refl eq_refl).
  discriminate.
Defined.

(** ** Further properties of the page *)

(** *** The status line *)

(** X1. The status line follows the three connection flags in order:
    connecting wins over connected, connected over disconnected, and the
    line reads Unknown exactly when no flag is up. *)
Theorem connectionStatus_priority (connecting connected disconnected : bool) :
  (connectionStatus connecting connected disconnected = "Connecting..."
   <-> connecting = true) /\
  (connectionStatus connecting connected disconnected = "Connected"
   <-> connecting = false /\ connected = true) /\
  (connectionStatus connecting connected disconnected = "Disconnected"
   <-> connecting = false /\ connected = false /\ disconnected = true) /\
  (connectionStatus connecting connected disconnected = "Unknown"
   <-> connecting = false /\ connected = false /\ disconnected = false).
Proof.
  destruct connecting, connected, disconnected; cbn;
    repeat split; intros; try discriminate;
    repeat match goal with H : _ /\ _ |- _ => destruct H end;
    try discriminate; reflexivity.
Qed.

(** *** The fetchers, beyond their failures *)

(** X2. When the balance query resolves, a balance other than zero is stored
    as [formatBalance] renders [formatEther] of it, and nothing is logged; a
    balance of zero is stored as [formatBalance] renders the text 0.0, and
    [formatEther] plays no part in that run. *)
Theorem fetchBalance_stores_formatted
  (FE : Z -> string) (FB : string -> Outcome string) (r : Render)
  (address : string) (s : State) (client : PublicClient) (wei : Z) :
  publicClient r = Some client ->
  getBalance client address = Resolved wei ->
  (wei <> 0%Z ->
   forall text,
     FB (FE wei) = Resolved text ->
     balance (run_trace (trace (fetchBalance FE FB r address)) s) = Some text /\
     console (trace (fetchBalance FE FB r address)) = []) /\
  (wei = 0%Z ->
   (forall text,
      FB "0.0" = Resolved text ->
      balance (run_trace (trace (fetchBalance FE FB r address)) s)
      = Some text /\
      console (trace (fetchBalance FE FB r address)) = []) /\
   forall FE' : Z -> string,
     fetchBalance FE' FB r address = fetchBalance FE FB r address).
Proof.
  intros Hc Hb. split.
  - intros Hne text Hf. rewrite fetchBalance_runs, Hc, Hb.
    destruct (Z.eqb_spec wei 0) as [Hz|_]; [now elim Hne|].
    rewrite Hf. split; reflexivity.
  - intros ->. split.
    + intros text Hf. rewrite fetchBalance_runs, Hc, Hb. cbn [Z.eqb].
      rewrite Hf. split; reflexivity.
    + intros FE'. now rewrite !fetchBalance_runs, Hc, Hb.
Qed.

Lemma fetchBalance_stores_formatted_sample :
  (balance
     (run_trace
        (trace (fetchBalance Samples.formatEther Samples.formatBalance
                  Samples.connected "0xA11CE"))
        Samples.idle)
   = Some "1500000000000000000" /\
   console
     (trace (fetchBalance Samples.formatEther Samples.formatBalance
               Samples.connected "0xA11CE"))
   = []) /\
  balance
    (run_trace
       (trace (fetchBalance Samples.formatEther Samples.formatBalance
                 MoreSamples.empty_wallet "0xA11CE"))
       Samples.idle)
  = Some "0.0".
Proof.
  split.
  - destruct (@fetchBalance_stores_formatted Samples.formatEther
                Samples.formatBalance Samples.connected "0xA11CE" Samples.idle
                Samples.client _ eq_refl eq_refl) as [Hfull _].
    apply Hfull; [discriminate | reflexivity].
  - destruct (@fetchBalance_stores_formatted Samples.formatEther
                Samples.formatBalance MoreSamples.empty_wallet "0xA11CE"
                Samples.idle MoreSamples.client_empty _ eq_refl eq_refl)
      as [_ Hzero].
    destruct (Hzero eq_refl) as [Hstored _].
    apply (Hstored "0.0" eq_refl).
Defined.

Lemma load_event_send_panel (e : Event) (s0 s : State) :
  load_event e = true -> same_send_panel s0 s ->
  same_send_panel s0 (apply_event s e).
Proof.
  intros He (Hr & Hs & Hh).
  destruct e; simpl in He; try discriminate; repeat split; simpl; assumption.
Qed.

Lemma load_events_send_panel (t : list Event) :
  forallb load_event t = true ->
  forall s0 s, same_send_panel s0 s ->
    Forall (same_send_panel s0) (scan t s) /\
    same_send_panel s0 (run_trace t s).
Proof.
  induction t as [|e t IH]; simpl; intros Ht s0 s Hs.
  - split; [constructor | exact Hs].
  - apply andb_prop in Ht as [He Ht].
    pose proof (load_event_send_panel e He Hs) as Hs'.
    destruct (IH Ht s0 _ Hs') as [Hscan Hrun].
    split; [constructor; assumption | exact Hrun].
Qed.
Lemma same_send_panel_refl (s : State) : same_send_panel s s.
Proof. repeat split. Qed.

(** X3. [fetchBalance] writes nothing but [balance]; it asks the read client
    once, for the address it was given, and not at all when there is no
    client; with a client, [balance] holds a text when the run is over,
    whatever the query and the formatting did. *)
Theorem fetchBalance_touches_only_balance
  (FE : Z -> string) (FB : string -> Outcome string) (r : Render)
  (address : string) (s : State) :
  let final := run_trace (trace (fetchBalance FE FB r address)) s in
  userAddress final = userAddress s /\ userInfo final = userInfo s /\
  recipientAddress final = recipientAddress s /\
  isSending final = isSending s /\
  transactionHash final = transactionHash s /\
  calls (trace (fetchBalance FE FB r address))
  = match publicClient r with
    | Some _ => [CGetBalance address]
    | None => []
    end /\
  match publicClient r with
  | Some _ => exists text, balance final = Some text
  | None => balance final = balance s
  end.
Proof.
  cbv zeta. rewrite fetchBalance_runs.
  repeat split_match; repeat split; try reflexivity; eexists; reflexivity.
Qed.

(** X4. [fetchUserInfo] never gives up control: all its effects happen
    before its caller goes on.  It calls the accessor once when the accessor
    is a function and never otherwise, and writes nothing but [userInfo]. *)
Theorem fetchUserInfo_is_synchronous (r : Render) (s : State) :
  let final := run_trace (trace (fetchUserInfo r)) s in
  forallb not_suspend (trace (fetchUserInfo r)) = true /\
  calls (trace (fetchUserInfo r))
  = match getUserInfo r with
    | Callable _ => [CGetUserInfo]
    | NotAFunction => []
    end /\
  userAddress final = userAddress s /\ balance final = balance s /\
  recipientAddress final = recipientAddress s /\
  isSending final = isSending s /\
  transactionHash final = transactionHash s.
Proof.
  cbv zeta. rewrite fetchUserInfo_runs.
  repeat split_match; repeat split; reflexivity.
Qed.

(** *** Loading the account, beyond the two fetches *)

(** X5. The order in which the two fetches are resumed makes no difference:
    under any two schedules [loadUserData] has the same effects in the same
    order and settles alike. *)
Theorem loadUserData_any_schedule
  (FE : Z -> string) (FB : string -> Outcome string)
  (sched sched' : list bool) (r : Render) :
  loadUserData FE FB sched r = loadUserData FE FB sched' r.
Proof. now rewrite !loadUserData_runs. Qed.

Lemma loadUserData_load_events
  (FE : Z -> string) (FB : string -> Outcome string) (sched : list bool)
  (r : Render) :
  forallb load_event (trace (loadUserData FE FB sched r)) = true.
Proof.
  rewrite loadUserData_runs, fetchUserInfo_runs.
  repeat split_match; try reflexivity.
  all: rewrite fetchBalance_runs; repeat split_match; reflexivity.
Qed.

(** X6. [loadUserData] leaves [recipientAddress], [isSending] and
    [transactionHash] as they were, in every store it passes through.  Every
    balance query it makes is for the address it has stored in
    [userAddress]; and when the address does not resolve, no fetch is
    started: the call for the address is the only one. *)
Theorem loadUserData_keeps_send_panel
  (FE : Z -> string) (FB : string -> Outcome string) (sched : list bool)
  (r : Render) (s : State) :
  (Forall (same_send_panel s) (scan (trace (loadUserData FE FB sched r)) s) /\
   same_send_panel s (run_trace (trace (loadUserData FE FB sched r)) s)) /\
  (forall a,
     In (CGetBalance a) (calls (trace (loadUserData FE FB sched r))) ->
     userAddress (run_trace (trace (loadUserData FE FB sched r)) s) = a) /\
  (forall account e,
     isConnected r = true -> smartAccount r = Some account ->
     getAddress account = Rejected e ->
     calls (trace (loadUserData FE FB sched r)) = [CGetAddress]).
Proof.
  split; [|split].
  - apply load_events_send_panel;
      [apply loadUserData_load_events | apply same_send_panel_refl].
  - intros a. rewrite loadUserData_runs, fetchUserInfo_runs.
    repeat split_match; try rewrite fetchBalance_runs; repeat split_match;
      cbn; intros Hin;
      repeat (destruct Hin as [Hin|Hin];
              [first [discriminate Hin | now injection Hin as <-]|]);
      now elim Hin.
  - intros account e Hc Ha He. now rewrite loadUserData_runs, Hc, Ha, He.
Qed.

Lemma loadUserData_keeps_send_panel_sample :
  userAddress
    (run_trace
       (trace (loadUserData Samples.formatEther Samples.formatBalance
                 [true] Samples.connected))
       Samples.idle)
  = "0xA11CE".
Proof.
  destruct (loadUserData_keeps_send_panel Samples.formatEther
              Samples.formatBalance [true] Samples.connected Samples.idle)
    as (_ & Hquery & _).
  apply Hquery. cbn. right. left. reflexivity.
Defined.

(** *** The senders, step by step *)

(** X7. The promise of [executeTxEthers] rejects exactly when there is a
    provider and obtaining the signer fails, and with that error; the run
    then consists of the request for the signer alone: the store is
    untouched, nothing is logged and nothing is sent. *)
Theorem executeTxEthers_rejects_only_without_signer
  (BP : SmartAccount -> Provider) (r : Render) (s : State) (e : Err) :
  (settled (executeTxEthers BP r) = Rejected e <->
   exists provider,
     customProvider BP r = Some provider /\ getSigner provider = Rejected e) /\
  (settled (executeTxEthers BP r) = Rejected e ->
   trace (executeTxEthers BP r) = [Invoke CGetSigner; Suspend] /\
   run_trace (trace (executeTxEthers BP r)) s = s).
Proof.
  rewrite executeTxEthers_runs.
  destruct (customProvider BP r) as [provider|].
  - destruct (getSigner provider) as [signer|e'] eqn:Hs.
    + split; [split|].
      * repeat split_match; discriminate.
      * intros (p & Hp & He). injection Hp as <-. congruence.
      * repeat split_match; discriminate.
    + split; [split|].
      * intros H. exists provider. split; [reflexivity|]. cbn in H. congruence.
      * intros (p & Hp & He). injection Hp as <-. cbn. congruence.
      * intros _. split; reflexivity.
  - split; [split|]; try discriminate.
    intros (p & Hp & _). discriminate Hp.
Qed.

Lemma executeTxEthers_rejects_only_without_signer_sample :
  trace (executeTxEthers MoreSamples.BrowserProvider_locked Samples.connected)
  = [Invoke CGetSigner; Suspend] /\
  run_trace
    (trace (executeTxEthers MoreSamples.BrowserProvider_locked
              Samples.connected))
    Samples.after_a_send
  = Samples.after_a_send.
Proof.
  destruct (executeTxEthers_rejects_only_without_signer
              MoreSamples.BrowserProvider_locked Samples.connected
              Samples.after_a_send "user rejected the request")
    as [_ Hrun].
  exact (Hrun eq_refl).
Defined.

(** X8. A sender takes each step at most once and in order, with no second
    attempt: the native sender asks for fee quotes and then, at most,
    submits one operation; the provider-based sender asks for the signer,
    then hands over the transfer, then waits for the confirmation, stopping
    at the first step that fails. *)
Theorem senders_call_each_step_once
  (BP : SmartAccount -> Provider) (r : Render) :
  (calls (trace (executeTxNative r)) = [] \/
   calls (trace (executeTxNative r)) = [CGetFeeQuotes (native_tx r)] \/
   exists op opHash,
     calls (trace (executeTxNative r))
     = [CGetFeeQuotes (native_tx r); CSendUserOperation op opHash]) /\
  (calls (trace (executeTxEthers BP r)) = [] \/
   calls (trace (executeTxEthers BP r)) = [CGetSigner] \/
   calls (trace (executeTxEthers BP r))
   = [CGetSigner; CSendTransaction (ethers_tx r)] \/
   calls (trace (executeTxEthers BP r))
   = [CGetSigner; CSendTransaction (ethers_tx r); CWait]).
Proof.
  rewrite executeTxNative_runs, executeTxEthers_runs. split.
  - repeat split_match; cbn; auto; right; right; eauto.
  - repeat split_match; cbn; auto.
Qed.

(** *** What the handlers keep *)

(** X9. No handler leaves the busy flag set: started from an idle page,
    every handler ends with [isSending] false, whatever the handles do, also
    when the provider-based sender rejects. *)
Theorem no_handler_leaves_the_flag_set
  (FE : Z -> string) (FB : string -> Outcome string)
  (BP : SmartAccount -> Provider) (r : Render) (h : Handler) (s : State) :
  isSending s = false ->
  isSending (run_trace (trace (handle FE FB BP r h)) s) = false.
Proof.
  intros Hidle. destruct h as [sched| | |text| |]; cbn [handle].
  - destruct (load_events_send_panel _ (loadUserData_load_events FE FB sched r)
                (same_send_panel_refl s)) as [_ (_ & Hs & _)]. congruence.
  - rewrite fetchBalance_runs. repeat split_match; exact Hidle.
  - exact Hidle.
  - exact Hidle.
  - rewrite executeTxNative_runs. repeat split_match; reflexivity.
  - rewrite executeTxEthers_runs. repeat split_match; first [reflexivity | exact Hidle].
Qed.

Lemma no_handler_leaves_the_flag_set_sample :
  isSending
    (run_trace
       (trace (handle Samples.formatEther Samples.formatBalance
                 MoreSamples.BrowserProvider_locked Samples.connected
                 OnSendEthers))
       Samples.idle)
  = false.
Proof.
  exact (@no_handler_leaves_the_flag_set Samples.formatEther
           Samples.formatBalance MoreSamples.BrowserProvider_locked
           Samples.connected OnSendEthers Samples.idle eq_refl).
Defined.

(** X10. Only typing into the recipient field changes [recipientAddress]:
    after any other handler it is what it was, and typing sets it to the
    typed text and changes nothing else. *)
Theorem recipient_changes_only_by_input
  (FE : Z -> string) (FB : string -> Outcome string)
  (BP : SmartAccount -> Provider) (r : Render) (h : Handler) (s : State) :
  recipientAddress (run_trace (trace (handle FE FB BP r h)) s)
  = match h with
    | OnRecipientInput text => text
    | _ => recipientAddress s
    end /\
  forall text,
    run_trace (trace (handle FE FB BP r (OnRecipientInput text))) s
    = mkState (userAddress s) (userInfo s) (balance s) text (isSending s)
        (transactionHash s).
Proof.
  split; [|reflexivity].
  destruct h as [sched| | |text| |]; cbn [handle].
  - destruct (load_events_send_panel _ (loadUserData_load_events FE FB sched r)
                (same_send_panel_refl s)) as [_ (Hr & _)]. exact Hr.
  - rewrite fetchBalance_runs. repeat split_match; reflexivity.
  - reflexivity.
  - reflexivity.
  - rewrite executeTxNative_runs. repeat split_match; reflexivity.
  - rewrite executeTxEthers_runs. repeat split_match; reflexivity.
Qed.

Lemma busy_is_disabled (s : State) : isSending s = true -> send_disabled s = true.
Proof. unfold send_disabled. intros ->. apply orb_true_r. Qed.

(** *** The send buttons and the notification *)

(** X11. During a native send both send buttons are disabled: in every
    store the call passes through, and so at each of its suspension points.
    When the call is over they are disabled exactly when the recipient field
    is empty. *)
Theorem native_send_disables_the_buttons (r : Render) (s : State) :
  Forall (fun st => send_disabled st = true)
    (removelast (scan (trace (executeTxNative r)) s)) /\
  Forall (fun st => send_disabled st = true)
    (suspended_stores (trace (executeTxNative r)) s) /\
  send_disabled (run_trace (trace (executeTxNative r)) s)
  = (recipientAddress s =? EmptyString)%string.
Proof.
  destruct (executeTxNative_busy r s) as (_ & _ & Hbusy & Hdone).
  split; [|split].
  - eapply Forall_impl; [|exact Hbusy]. cbn. intros st Hst.
    apply busy_is_disabled, Hst.
  - rewrite executeTxNative_runs.
    repeat split_match; cbn;
      repeat first [apply Forall_nil | apply Forall_cons; [apply orb_true_r|]].
  - destruct (send_events_panel _ (executeTxNative_send_events r)
                (same_panel_refl s)) as [_ (_ & _ & _ & Hr)].
    unfold send_disabled. rewrite Hdone, Hr. apply orb_false_r.
Qed.

(** X12. With a provider, the page the provider-based send shows at its
    first suspension, while the signer is obtained, is the page as it was
    before the call, so the send buttons are no more disabled than they
    were; at every later suspension they are disabled.  When the call
    resolves they are disabled exactly when the recipient field is empty. *)
Theorem ethers_send_disables_after_the_signer
  (BP : SmartAccount -> Provider) (r : Render) (s : State)
  (provider : Provider) :
  customProvider BP r = Some provider ->
  exists later,
    suspended_stores (trace (executeTxEthers BP r)) s = s :: later /\
    Forall (fun st => send_disabled st = true) later /\
    (settled (executeTxEthers BP r) = Resolved tt ->
     send_disabled (run_trace (trace (executeTxEthers BP r)) s)
     = (recipientAddress s =? EmptyString)%string).
Proof.
  intros Hp. rewrite executeTxEthers_runs, Hp.
  repeat split_match; cbn; eexists; (split; [reflexivity|]);
    (split; [repeat first [apply Forall_nil | apply Forall_cons; [apply orb_true_r|]]|]); intros Hr; try discriminate Hr;
    unfold send_disabled; cbn; apply orb_false_r.
Qed.

Lemma ethers_send_disables_after_the_signer_sample :
  exists later,
    suspended_stores
      (trace (executeTxEthers Samples.BrowserProvider Samples.connected))
      Samples.idle
    = Samples.idle :: later /\
    Forall (fun st => send_disabled st = true) later /\
    (settled (executeTxEthers Samples.BrowserProvider Samples.connected)
     = Resolved tt ->
     send_disabled
       (run_trace
          (trace (executeTxEthers Samples.BrowserProvider Samples.connected))
          Samples.idle)
     = (recipientAddress Samples.idle =? EmptyString)%string).
Proof.
  exact (@ethers_send_disables_after_the_signer Samples.BrowserProvider
           Samples.connected Samples.idle _ eq_refl).
Defined.




